(** * User service of the FastAPI web application

    A shallow embedding of [app/services/user_service.py] (class
    [UserService]: [create], [login], [is_superuser], [delete_user]) and the
    properties of its registration, authentication, superuser-check and
    deletion flows.

    The service is a thin layer over collaborators that live in other
    modules of the application: the user repository, the password hasher,
    the token issuer, the two validators and the settings object.  The
    repository is modelled as a table keyed by primary key; the remaining
    collaborators are the fields of an interface class.  Every collaborator
    call is recorded in a call log, so that "which calls were made" can be
    stated and proved. *)

From stdpp Require Import gmap strings list fin_maps.

Local Open Scope Z_scope.
Local Open Scope string_scope.

(** ** Data model *)

(** A [UUID4] is kept as its 128-bit integer value. *)
Definition UUID : Type := N.

(** [str(uuid)]: 32 lower-case hexadecimal digits in groups 8-4-4-4-12,
    as interpolated by the f-strings of the service. *)
Definition hex_digit (d : N) : Ascii.ascii :=
  match String.get (N.to_nat d) "0123456789abcdef" with
  | Some c => c
  | None => Ascii.ascii_of_nat 48
  end.

Fixpoint hex_pad (k : nat) (n : N) (acc : string) : string :=
  match k with
  | O => acc
  | S k' => hex_pad k' (n / 16)%N (String.String (hex_digit (n mod 16)%N) acc)
  end.

Definition str_UUID (u : UUID) : string :=
  let h := hex_pad 32 u "" in
  String.substring 0 8 h +:+ "-" +:+ String.substring 8 4 h +:+ "-" +:+
  String.substring 12 4 h +:+ "-" +:+ String.substring 16 4 h +:+ "-" +:+
  String.substring 20 12 h.

(** [schemas.user.UserIn]: the registration payload. *)
Module UserIn.
Record t : Type := Build
  { username : string;
    email : string;
    password : string }.
End UserIn.

(** [schemas.user.UserLogin]: the login payload. *)
Module UserLogin.
Record t : Type := Build
  { username : string;
    password : string }.
End UserLogin.

(** The user entity handed out by the repository (an ORM object). *)
Module User.
Record t : Type := Build
  { id : UUID;
    username : string;
    email : string;
    hashed_password : string;
    is_superuser : bool }.
End User.

(** Modelled from the spec: [schemas.user.UserInDBBase] is not part of the
    sources; it carries "the created user's public fields (excluding the
    hash)". *)
Module UserInDBBase.
Record t : Type := Build
  { id : UUID;
    username : string;
    email : string;
    is_superuser : bool }.

Definition from_orm (u : User.t) : t :=
  {| id := User.id u;
     username := User.username u;
     email := User.email u;
     is_superuser := User.is_superuser u |}.
End UserInDBBase.

(** [datetime.timedelta], kept as its total number of seconds. *)
Record timedelta : Type := Timedelta { total_seconds : Z }.

Definition timedelta_minutes (minutes : Z) : timedelta :=
  Timedelta (60 * minutes).

(** A Python [dict] from strings to strings (JWT claims, response headers,
    the token response). *)
Abbreviation dict := (gmap string string).

(** [fastapi.status] *)
Definition HTTP_400_BAD_REQUEST : Z := 400.
Definition HTTP_404_NOT_FOUND : Z := 404.

(** What a call may raise.  [HTTPException] is FastAPI's, with its optional
    [headers].  [InvalidInput] is what the validators raise (Modelled from
    the spec: the validators are "failing with InvalidInput and a
    human-readable reason").  [AttributeError] is Python's own, raised on an
    attribute access on [None]. *)
Inductive Exception : Type :=
| HTTPException (status_code : Z) (detail : string) (headers : option dict)
| InvalidInput (reason : string)
| AttributeError (msg : string).

(** The four user-visible error kinds of the service. *)
Inductive ErrorKind : Type :=
| Conflict | Invalid | Unauthorized | NotFound | Internal.

Definition error_kind (e : Exception) : ErrorKind :=
  match e with
  | HTTPException 400 _ _ => Conflict
  | HTTPException 401 _ _ => Unauthorized
  | HTTPException 404 _ _ => NotFound
  | HTTPException _ _ _ => Internal
  | InvalidInput _ => Invalid
  | AttributeError _ => Internal
  end.

(** ** The User Store *)

(** The columns of a row of the users table other than its primary key. *)
Module UserRow.
Record t : Type := Build
  { username : string;
    email : string;
    hashed_password : string;
    is_superuser : bool }.
End UserRow.

(** The users table: rows by primary key. *)
Abbreviation Store := (gmap UUID UserRow.t).

(** Loading a row as a [User] object. *)
Definition load (i : UUID) (r : UserRow.t) : User.t :=
  {| User.id := i;
     User.username := UserRow.username r;
     User.email := UserRow.email r;
     User.hashed_password := UserRow.hashed_password r;
     User.is_superuser := UserRow.is_superuser r |}.

Definition all_users (s : Store) : list User.t :=
  (fun ir => load (fst ir) (snd ir)) <$> map_to_list s.

(** Modelled from the spec: [repositories.user_repository.UserRepository] is
    not part of the sources.  Its operations are "existsByEmail,
    existsByUsername, existsById, getByUsername, getById, create(data, hash),
    delete(user)", "all synchronous, all raise no exceptions of their own
    (absence reported as boolean/empty)".  Here they are functions of the
    table; the service calls them through the session of the request. *)
Module UserRepository.
Definition user_exists_by_email (s : Store) (email : string) : bool :=
  existsb (fun u => String.eqb (User.email u) email) (all_users s).

Definition user_exists_by_username (s : Store) (username : string) : bool :=
  existsb (fun u => String.eqb (User.username u) username) (all_users s).

Definition user_exists_by_id (s : Store) (_id : UUID) : bool :=
  bool_decide (is_Some (s !! _id)).

Definition get_user_by_username (s : Store) (username : string)
  : option User.t :=
  List.find (fun u => String.eqb (User.username u) username) (all_users s).

Definition get_user_object_by_id (s : Store) (_id : UUID) : option User.t :=
  load _id <$> s !! _id.

(** The record "built from the input data and that hash"; the superuser
    flag of a new record is the store's to choose. *)
Definition new_row (data : UserIn.t) (hashed_password : string)
    (superuser : bool) : UserRow.t :=
  {| UserRow.username := UserIn.username data;
     UserRow.email := UserIn.email data;
     UserRow.hashed_password := hashed_password;
     UserRow.is_superuser := superuser |}.

Definition create (s : Store) (i : UUID) (r : UserRow.t) : Store :=
  <[i := r]> s.

Definition delete_user (s : Store) (user : User.t) : Store :=
  delete (User.id user) s.
End UserRepository.

(** ** Collaborators, calls and the world *)

(** The calls the service makes to its collaborators, with their
    arguments, as recorded in the call log. *)
Inductive Call : Type :=
| CallUserExistsByEmail (email : string)
| CallUserExistsByUsername (username : string)
| CallUserExistsById (_id : UUID)
| CallGetUserByUsername (username : string)
| CallGetUserObjectById (_id : UUID)
| CallRepositoryCreate (data : UserIn.t) (hashed_password : string)
| CallRepositoryDeleteUser (user : option User.t)
| CallValidatePassword (password : string)
| CallValidateEmail (email : string)
| CallGetPasswordHash (password : string)
| CallPwdVerify (password : string) (hashed_password : string)
| CallCreateAccessToken (data : dict) (expires_delta : timedelta).

Definition is_validation (c : Call) : bool :=
  match c with
  | CallValidatePassword _ | CallValidateEmail _ => true
  | _ => false
  end.

Definition is_store_mutation (c : Call) : bool :=
  match c with
  | CallRepositoryCreate _ _ | CallRepositoryDeleteUser _ => true
  | _ => false
  end.

(** The state a call of the service runs in: the users table, the ambient
    state [env] that the hasher and the token issuer draw on (salt, clock),
    and the call log. *)
Record World (Env : Type) : Type := MkWorld
  { db : Store;
    env : Env;
    log : list Call }.
Arguments MkWorld {Env} _ _ _.
Arguments db {Env} _.
Arguments env {Env} _.
Arguments log {Env} _.

(** Modelled from the spec: [core.security], [core.password_validator],
    [core.email_validator] and [config.settings] are not part of the
    sources.  The "Secret Hasher" is "hash(plaintext) -> digest,
    verify(plaintext, digest) -> bool", the "Token Issuer" is "issue(claims,
    ttl) -> token", the validators are "validatePassword(s) and
    validateEmail(s), each failing with InvalidInput and a human-readable
    reason" ([Some reason]; [None] when the input passes), and the
    configuration is the "token lifetime in minutes".  [new_id] and
    [default_is_superuser] are the primary key and the flag the store gives
    a new record. *)
Class Collaborators (Env : Type) : Type :=
  { get_password_hash : string -> Env -> string * Env;
    pwd_context_verify : string -> string -> bool;
    create_access_token : dict -> timedelta -> Env -> string * Env;
    validate_password : string -> option string;
    validate_email : string -> option string;
    ACCESS_TOKEN_EXPIRE_MINUTES : Z;
    new_id : Store -> UUID;
    default_is_superuser : bool }.

(** ** The monad of the service: state, exceptions and the call log *)

Inductive Outcome (A : Type) : Type :=
| Return (a : A)
| Raise (e : Exception).
Arguments Return {A} _.
Arguments Raise {A} _.

Definition M (Env A : Type) : Type := World Env -> Outcome A * World Env.

Section Monad.
Context {Env : Type}.

#[export] Instance M_ret : MRet (M Env) := fun A a w => (Return a, w).

#[export] Instance M_bind : MBind (M Env) := fun A B f m w =>
  match m w with
  | (Return a, w') => f a w'
  | (Raise e, w') => (Raise e, w')
  end.

Definition raise {A : Type} (e : Exception) : M Env A :=
  fun w => (Raise e, w).

(** [if cond: stmt] *)
Definition when (cond : bool) (stmt : M Env unit) : M Env unit :=
  if cond then stmt else mret tt.

Definition trace (c : Call) : M Env unit :=
  fun w => (Return tt, MkWorld (db w) (env w) (log w ++ [c])).

Definition query {A : Type} (f : Store -> A) : M Env A :=
  fun w => (Return (f (db w)), w).

Definition update (f : Store -> Store) : M Env unit :=
  fun w => (Return tt, MkWorld (f (db w)) (env w) (log w)).

Definition ambient {A : Type} (f : Env -> A * Env) : M Env A :=
  fun w => (Return (fst (f (env w))), MkWorld (db w) (snd (f (env w))) (log w)).

(** [obj.attr] on a value that may be [None]. *)
Definition attr {A : Type} (f : User.t -> A) (obj : option User.t)
  : M Env A :=
  match obj with
  | Some u => mret (f u)
  | None => raise (AttributeError "'NoneType' object has no attribute")
  end.
End Monad.

(** ** The service *)

Section UserService.
Context {Env : Type} {deps : Collaborators Env}.

(** *** Calls through [self.repository] and the imported helpers *)

Definition repository_user_exists_by_email (email : string) : M Env bool :=
  trace (CallUserExistsByEmail email);;
  query (fun s => UserRepository.user_exists_by_email s email).

Definition repository_user_exists_by_username (username : string)
  : M Env bool :=
  trace (CallUserExistsByUsername username);;
  query (fun s => UserRepository.user_exists_by_username s username).

Definition repository_user_exists_by_id (_id : UUID) : M Env bool :=
  trace (CallUserExistsById _id);;
  query (fun s => UserRepository.user_exists_by_id s _id).

Definition repository_get_user_by_username (username : string)
  : M Env (option User.t) :=
  trace (CallGetUserByUsername username);;
  query (fun s => UserRepository.get_user_by_username s username).

Definition repository_get_user_object_by_id (_id : UUID)
  : M Env (option User.t) :=
  trace (CallGetUserObjectById _id);;
  query (fun s => UserRepository.get_user_object_by_id s _id).

Definition repository_create (data : UserIn.t) (hashed_password : string)
  : M Env UserInDBBase.t :=
  trace (CallRepositoryCreate data hashed_password);;
  i ← query new_id;
  let r := UserRepository.new_row data hashed_password default_is_superuser in
  update (fun s => UserRepository.create s i r);;
  mret (UserInDBBase.from_orm (load i r)).

Definition repository_delete_user (user : option User.t) : M Env unit :=
  trace (CallRepositoryDeleteUser user);;
  u ← attr (fun u => u) user;
  update (fun s => UserRepository.delete_user s u).

Definition call_validate_password (password : string) : M Env unit :=
  trace (CallValidatePassword password);;
  match validate_password password with
  | Some reason => raise (InvalidInput reason)
  | None => mret tt
  end.

Definition call_validate_email (email : string) : M Env unit :=
  trace (CallValidateEmail email);;
  match validate_email email with
  | Some reason => raise (InvalidInput reason)
  | None => mret tt
  end.

Definition call_get_password_hash (password : string) : M Env string :=
  trace (CallGetPasswordHash password);;
  ambient (get_password_hash password).

Definition call_pwd_context_verify (password hashed_password : string)
  : M Env bool :=
  trace (CallPwdVerify password hashed_password);;
  mret (pwd_context_verify password hashed_password).

Definition call_create_access_token (data : dict) (expires_delta : timedelta)
  : M Env string :=
  trace (CallCreateAccessToken data expires_delta);;
  ambient (create_access_token data expires_delta).

(** *** [UserService.create] *)
Definition create (data : UserIn.t) : M Env UserInDBBase.t :=
  taken ← repository_user_exists_by_email (UserIn.email data);
  when taken
    (raise (HTTPException HTTP_400_BAD_REQUEST
              ("Email " +:+ UserIn.email data +:+ " already registered")
              None));;
  taken ← repository_user_exists_by_username (UserIn.username data);
  when taken
    (raise (HTTPException HTTP_400_BAD_REQUEST
              ("Username " +:+ UserIn.username data +:+ " already registered")
              None));;
  call_validate_password (UserIn.password data);;
  call_validate_email (UserIn.email data);;
  hashed_password ← call_get_password_hash (UserIn.password data);
  repository_create data hashed_password.

(** *** [UserService.login]

    [not user or not pwd_context.verify(...)] evaluates the verification
    only when a user was found; one [raise] serves both cases. *)
Definition login (data : UserLogin.t) : M Env dict :=
  user ← repository_get_user_by_username (UserLogin.username data);
  rejected ← match user with
             | None => mret true
             | Some u =>
                 ok ← call_pwd_context_verify (UserLogin.password data)
                        (User.hashed_password u);
                 mret (negb ok)
             end;
  when rejected
    (raise (HTTPException 401 "Incorrect username or password"
              (Some {[ "WWW-Authenticate" := "Bearer" ]})));;
  let access_token_expires := timedelta_minutes ACCESS_TOKEN_EXPIRE_MINUTES in
  sub ← attr User.username user;
  access_token ← call_create_access_token {[ "sub" := sub ]}
                   access_token_expires;
  mret ({[ "access_token" := access_token; "token_type" := "bearer" ]} : dict).

(** *** [UserService.is_superuser] *)
Definition is_superuser (_id : UUID) : M Env bool :=
  found ← repository_user_exists_by_id _id;
  when (negb found)
    (raise (HTTPException HTTP_404_NOT_FOUND
              ("User " +:+ str_UUID _id +:+ " not found") None));;
  user ← repository_get_user_object_by_id _id;
  attr User.is_superuser user.

(** *** [UserService.delete_user] *)
Definition delete_user (_id : UUID) : M Env bool :=
  found ← repository_user_exists_by_id _id;
  when (negb found)
    (raise (HTTPException HTTP_404_NOT_FOUND
              ("User " +:+ str_UUID _id +:+ " not found") None));;
  user ← repository_get_user_object_by_id _id;
  repository_delete_user user;;
  mret true.
End UserService.

(** ** A concrete instance, for running the service *)

Module Demo.
(** The ambient state is a tick counter. *)
Definition hash (password : string) (tick : nat) : string * nat :=
  ("h:" +:+ password, S tick).

Definition verify (password hashed_password : string) : bool :=
  String.eqb hashed_password ("h:" +:+ password).

Definition issue (claims : dict) (ttl : timedelta) (tick : nat)
  : string * nat :=
  ("jwt:" +:+ default "" (claims !! "sub"), S tick).

Definition check_password (s : string) : option string :=
  if (String.length s <? 8)%nat
  then Some "Password must be at least 8 characters long"
  else None.

Definition check_email (s : string) : option string :=
  match String.index 0 "@" s with
  | Some _ => None
  | None => Some "Invalid email address"
  end.

Definition next_key (s : Store) : UUID :=
  N.succ (map_fold (fun k _ acc => N.max k acc) 0%N s).

#[export] Instance collaborators : Collaborators nat :=
  {| get_password_hash := hash;
     pwd_context_verify := verify;
     create_access_token := issue;
     validate_password := check_password;
     validate_email := check_email;
     ACCESS_TOKEN_EXPIRE_MINUTES := 30;
     new_id := next_key;
     default_is_superuser := false |}.

Definition store : Store :=
  <[ 7%N := UserRow.Build "alice" "a@x.com" "h:Str0ng!Pass" false ]>
  (<[ 9%N := UserRow.Build "root" "r@x.com" "h:toor-toor" true ]> ∅).

Definition world : World nat := MkWorld store O [].

Definition empty_world : World nat := MkWorld ∅ O [].

Definition alice : UserIn.t := UserIn.Build "alice" "a@x.com" "Str0ng!Pass".
Definition bob : UserIn.t := UserIn.Build "bob" "b@x.com" "Str0ng!Pass".
End Demo.


(** ** Reading the call log *)

(** The calls a run of [m] from [w] has added to the log. *)
Definition calls_made {Env A : Type} (m : M Env A) (w : World Env)
  : list Call :=
  drop (length (log w)) (log (snd (m w))).

Definition is_token_issue (c : Call) : bool :=
  match c with
  | CallCreateAccessToken _ _ => true
  | _ => false
  end.

Definition is_hashing (c : Call) : bool :=
  match c with
  | CallGetPasswordHash _ => true
  | _ => false
  end.

(** The calls of [UserService.create] in the order of its statements. *)
Definition create_call_sequence {Env : Type} {deps : Collaborators Env}
    (data : UserIn.t) (w : World Env) : list Call :=
  [ CallUserExistsByEmail (UserIn.email data);
    CallUserExistsByUsername (UserIn.username data);
    CallValidatePassword (UserIn.password data);
    CallValidateEmail (UserIn.email data);
    CallGetPasswordHash (UserIn.password data);
    CallRepositoryCreate data
      (fst (get_password_hash (UserIn.password data) (env w))) ].

(** ** The repository model: what the queries say about the table *)

Section Repository.
Implicit Types (s : Store) (u : User.t) (r : UserRow.t) (i : UUID).

Lemma elem_of_all_users s u :
  u ∈ all_users s <-> exists i r, s !! i = Some r /\ u = load i r.
Proof.
  unfold all_users. rewrite list_elem_of_fmap. split.
  - intros [[i r] [-> Hin]]. apply elem_of_map_to_list in Hin. eauto.
  - intros (i & r & Hs & ->). exists (i, r). split; [done |].
    by apply elem_of_map_to_list.
Qed.

Lemma user_exists_by_username_true s name :
  UserRepository.user_exists_by_username s name = true
  <-> exists i r, s !! i = Some r /\ UserRow.username r = name.
Proof.
  unfold UserRepository.user_exists_by_username.
  rewrite existsb_exists. split.
  - intros (u & Hin & Heq). apply list_elem_of_In, elem_of_all_users in Hin.
    destruct Hin as (i & r & Hs & ->). apply String.eqb_eq in Heq. eauto.
  - intros (i & r & Hs & <-). exists (load i r). split.
    + apply list_elem_of_In, elem_of_all_users. eauto.
    + apply String.eqb_refl.
Qed.

Lemma user_exists_by_email_true s mail :
  UserRepository.user_exists_by_email s mail = true
  <-> exists i r, s !! i = Some r /\ UserRow.email r = mail.
Proof.
  unfold UserRepository.user_exists_by_email.
  rewrite existsb_exists. split.
  - intros (u & Hin & Heq). apply list_elem_of_In, elem_of_all_users in Hin.
    destruct Hin as (i & r & Hs & ->). apply String.eqb_eq in Heq. eauto.
  - intros (i & r & Hs & <-). exists (load i r). split.
    + apply list_elem_of_In, elem_of_all_users. eauto.
    + apply String.eqb_refl.
Qed.

Lemma user_exists_by_id_true s i :
  UserRepository.user_exists_by_id s i = true <-> is_Some (s !! i).
Proof. unfold UserRepository.user_exists_by_id. apply bool_decide_eq_true. Qed.

Lemma user_exists_by_id_false s i :
  UserRepository.user_exists_by_id s i = false <-> s !! i = None.
Proof.
  unfold UserRepository.user_exists_by_id.
  rewrite bool_decide_eq_false, eq_None_not_Some. done.
Qed.

(** A user found by name is a row of the table and carries that name. *)
Lemma get_user_by_username_Some s name u :
  UserRepository.get_user_by_username s name = Some u ->
  User.username u = name
  /\ exists r, s !! User.id u = Some r /\ u = load (User.id u) r.
Proof.
  unfold UserRepository.get_user_by_username. intros Hfind.
  apply find_some in Hfind as [Hin Heq]. apply String.eqb_eq in Heq.
  apply list_elem_of_In, elem_of_all_users in Hin.
  destruct Hin as (i & r & Hs & ->). split; [done |]. exists r. done.
Qed.

(** The two queries by name agree. *)
Lemma get_user_by_username_None s name :
  UserRepository.get_user_by_username s name = None
  <-> UserRepository.user_exists_by_username s name = false.
Proof.
  unfold UserRepository.get_user_by_username,
    UserRepository.user_exists_by_username.
  induction (all_users s) as [| u l IH]; simpl; [done |].
  destruct (String.eqb (User.username u) name); simpl; [done | exact IH].
Qed.

Lemma get_user_by_username_is_Some s name :
  is_Some (UserRepository.get_user_by_username s name)
  <-> UserRepository.user_exists_by_username s name = true.
Proof.
  rewrite <- not_eq_None_Some, get_user_by_username_None.
  destruct (UserRepository.user_exists_by_username s name); naive_solver.
Qed.

(** After a row with a name no other row carries has been stored, the
    query by that name finds exactly that row. *)
Lemma get_user_by_username_create s i r :
  UserRepository.user_exists_by_username s (UserRow.username r) = false ->
  UserRepository.get_user_by_username (UserRepository.create s i r)
    (UserRow.username r) = Some (load i r).
Proof.
  intros Hfresh.
  destruct (UserRepository.get_user_by_username
              (UserRepository.create s i r) (UserRow.username r))
    as [u |] eqn:Hget.
  - apply get_user_by_username_Some in Hget as [Hname (r' & Hs & Hu)].
    unfold UserRepository.create in Hs.
    destruct (decide (i = User.id u)) as [Heq | Hne].
    + rewrite <- Heq in Hs, Hu. rewrite lookup_insert_eq in Hs.
      injection Hs as ->. by rewrite Hu.
    + rewrite lookup_insert_ne in Hs by done.
      assert (UserRepository.user_exists_by_username s (UserRow.username r)
              = true) as Hex.
      { apply user_exists_by_username_true. exists (User.id u), r'.
        split; [done |]. rewrite Hu in Hname. done. }
      congruence.
  - apply get_user_by_username_None in Hget.
    assert (UserRepository.user_exists_by_username
              (UserRepository.create s i r) (UserRow.username r) = true)
      as Hex.
    { apply user_exists_by_username_true. exists i, r.
      split; [apply lookup_insert_eq | done]. }
    congruence.
Qed.
End Repository.

(** ** Running the service *)

(** Unfolds the monad and the collaborator calls, leaving the control flow
    of the service over the hypotheses of the goal. *)
Ltac unfold_calls :=
  unfold repository_user_exists_by_email, repository_user_exists_by_username,
    repository_user_exists_by_id, repository_get_user_by_username,
    repository_get_user_object_by_id, repository_create,
    repository_delete_user, call_validate_password, call_validate_email,
    call_get_password_hash, call_pwd_context_verify,
    call_create_access_token, attr, when, raise, trace, query, update,
    ambient;
  unfold mbind, M_bind, mret, M_ret; cbn [fst snd db env log negb].

Section Properties.
Context {Env : Type} {deps : Collaborators Env}.
Implicit Types (w : World Env).

(** *** The paths of [create] *)

Lemma create_run_email_taken data w :
  UserRepository.user_exists_by_email (db w) (UserIn.email data) = true ->
  create data w
  = (Raise (HTTPException HTTP_400_BAD_REQUEST
              ("Email " +:+ UserIn.email data +:+ " already registered")
              None),
     MkWorld (db w) (env w)
       (log w ++ [CallUserExistsByEmail (UserIn.email data)])).
Proof. intros He. unfold create. unfold_calls. rewrite He. reflexivity. Qed.

Lemma create_run_username_taken data w :
  UserRepository.user_exists_by_email (db w) (UserIn.email data) = false ->
  UserRepository.user_exists_by_username (db w) (UserIn.username data)
  = true ->
  create data w
  = (Raise (HTTPException HTTP_400_BAD_REQUEST
              ("Username " +:+ UserIn.username data +:+ " already registered")
              None),
     MkWorld (db w) (env w)
       (log w ++ [CallUserExistsByEmail (UserIn.email data);
                  CallUserExistsByUsername (UserIn.username data)])).
Proof.
  intros He Hu. unfold create. unfold_calls. rewrite He. unfold_calls.
  rewrite Hu. unfold_calls. rewrite <- app_assoc. reflexivity.
Qed.

Lemma create_run_password_rejected data w reason :
  UserRepository.user_exists_by_email (db w) (UserIn.email data) = false ->
  UserRepository.user_exists_by_username (db w) (UserIn.username data)
  = false ->
  validate_password (UserIn.password data) = Some reason ->
  create data w
  = (Raise (InvalidInput reason),
     MkWorld (db w) (env w)
       (log w ++ [CallUserExistsByEmail (UserIn.email data);
                  CallUserExistsByUsername (UserIn.username data);
                  CallValidatePassword (UserIn.password data)])).
Proof.
  intros He Hu Hp. unfold create. unfold_calls. rewrite He. unfold_calls.
  rewrite Hu. unfold_calls. rewrite Hp. unfold_calls.
  rewrite <- !app_assoc. reflexivity.
Qed.

Lemma create_run_email_rejected data w reason :
  UserRepository.user_exists_by_email (db w) (UserIn.email data) = false ->
  UserRepository.user_exists_by_username (db w) (UserIn.username data)
  = false ->
  validate_password (UserIn.password data) = None ->
  validate_email (UserIn.email data) = Some reason ->
  create data w
  = (Raise (InvalidInput reason),
     MkWorld (db w) (env w)
       (log w ++ [CallUserExistsByEmail (UserIn.email data);
                  CallUserExistsByUsername (UserIn.username data);
                  CallValidatePassword (UserIn.password data);
                  CallValidateEmail (UserIn.email data)])).
Proof.
  intros He Hu Hp Hm. unfold create. unfold_calls. rewrite He. unfold_calls.
  rewrite Hu. unfold_calls. rewrite Hp. unfold_calls. rewrite Hm.
  unfold_calls. rewrite <- !app_assoc. reflexivity.
Qed.

Lemma create_run_accepted data w :
  UserRepository.user_exists_by_email (db w) (UserIn.email data) = false ->
  UserRepository.user_exists_by_username (db w) (UserIn.username data)
  = false ->
  validate_password (UserIn.password data) = None ->
  validate_email (UserIn.email data) = None ->
  create data w
  = (Return
       (UserInDBBase.from_orm
          (load (new_id (db w))
             (UserRepository.new_row data
                (fst (get_password_hash (UserIn.password data) (env w)))
                default_is_superuser))),
     MkWorld
       (UserRepository.create (db w) (new_id (db w))
          (UserRepository.new_row data
             (fst (get_password_hash (UserIn.password data) (env w)))
             default_is_superuser))
       (snd (get_password_hash (UserIn.password data) (env w)))
       (log w ++ [CallUserExistsByEmail (UserIn.email data);
                  CallUserExistsByUsername (UserIn.username data);
                  CallValidatePassword (UserIn.password data);
                  CallValidateEmail (UserIn.email data);
                  CallGetPasswordHash (UserIn.password data);
                  CallRepositoryCreate data
                    (fst (get_password_hash (UserIn.password data)
                            (env w)))])).
Proof.
  intros He Hu Hp Hm. unfold create. unfold_calls. rewrite He. unfold_calls.
  rewrite Hu. unfold_calls. rewrite Hp. unfold_calls. rewrite Hm.
  unfold_calls. rewrite <- !app_assoc. reflexivity.
Qed.

(** *** The paths of [login] *)

Lemma login_run_unknown_user data w :
  UserRepository.get_user_by_username (db w) (UserLogin.username data)
  = None ->
  login data w
  = (Raise (HTTPException 401 "Incorrect username or password"
              (Some {[ "WWW-Authenticate" := "Bearer" ]})),
     MkWorld (db w) (env w)
       (log w ++ [CallGetUserByUsername (UserLogin.username data)])).
Proof. intros Hg. unfold login. unfold_calls. rewrite Hg. reflexivity. Qed.

Lemma login_run_wrong_password data w u :
  UserRepository.get_user_by_username (db w) (UserLogin.username data)
  = Some u ->
  pwd_context_verify (UserLogin.password data) (User.hashed_password u)
  = false ->
  login data w
  = (Raise (HTTPException 401 "Incorrect username or password"
              (Some {[ "WWW-Authenticate" := "Bearer" ]})),
     MkWorld (db w) (env w)
       (log w ++ [CallGetUserByUsername (UserLogin.username data);
                  CallPwdVerify (UserLogin.password data)
                    (User.hashed_password u)])).
Proof.
  intros Hg Hv. unfold login. unfold_calls. rewrite Hg. unfold_calls.
  rewrite Hv. unfold_calls. rewrite <- !app_assoc. reflexivity.
Qed.

Lemma login_run_verified data w u :
  UserRepository.get_user_by_username (db w) (UserLogin.username data)
  = Some u ->
  pwd_context_verify (UserLogin.password data) (User.hashed_password u)
  = true ->
  login data w
  = (Return
       {[ "access_token" :=
            fst (create_access_token {[ "sub" := User.username u ]}
                   (timedelta_minutes ACCESS_TOKEN_EXPIRE_MINUTES) (env w));
          "token_type" := "bearer" ]},
     MkWorld (db w)
       (snd (create_access_token {[ "sub" := User.username u ]}
               (timedelta_minutes ACCESS_TOKEN_EXPIRE_MINUTES) (env w)))
       (log w ++ [CallGetUserByUsername (UserLogin.username data);
                  CallPwdVerify (UserLogin.password data)
                    (User.hashed_password u);
                  CallCreateAccessToken {[ "sub" := User.username u ]}
                    (timedelta_minutes ACCESS_TOKEN_EXPIRE_MINUTES)])).
Proof.
  intros Hg Hv. unfold login. unfold_calls. rewrite Hg. unfold_calls.
  rewrite Hv. unfold_calls. rewrite <- !app_assoc. reflexivity.
Qed.

(** *** The paths of [is_superuser] and [delete_user] *)

Lemma is_superuser_run_missing (_id : UUID) w :
  db w !! _id = None ->
  is_superuser _id w
  = (Raise (HTTPException HTTP_404_NOT_FOUND
              ("User " +:+ str_UUID _id +:+ " not found") None),
     MkWorld (db w) (env w) (log w ++ [CallUserExistsById _id])).
Proof.
  intros Hs. apply user_exists_by_id_false in Hs.
  unfold is_superuser. unfold_calls. rewrite Hs. reflexivity.
Qed.

Lemma is_superuser_run_found (_id : UUID) w r :
  db w !! _id = Some r ->
  is_superuser _id w
  = (Return (UserRow.is_superuser r),
     MkWorld (db w) (env w)
       (log w ++ [CallUserExistsById _id; CallGetUserObjectById _id])).
Proof.
  intros Hs.
  assert (UserRepository.user_exists_by_id (db w) _id = true) as Hex
    by (apply user_exists_by_id_true; eauto).
  unfold is_superuser. unfold_calls. rewrite Hex. unfold_calls.
  unfold UserRepository.get_user_object_by_id. rewrite Hs.
  rewrite <- !app_assoc. reflexivity.
Qed.

Lemma delete_user_run_missing (_id : UUID) w :
  db w !! _id = None ->
  delete_user _id w
  = (Raise (HTTPException HTTP_404_NOT_FOUND
              ("User " +:+ str_UUID _id +:+ " not found") None),
     MkWorld (db w) (env w) (log w ++ [CallUserExistsById _id])).
Proof.
  intros Hs. apply user_exists_by_id_false in Hs.
  unfold delete_user. unfold_calls. rewrite Hs. reflexivity.
Qed.

Lemma delete_user_run_found (_id : UUID) w r :
  db w !! _id = Some r ->
  delete_user _id w
  = (Return true,
     MkWorld (delete _id (db w)) (env w)
       (log w ++ [CallUserExistsById _id; CallGetUserObjectById _id;
                  CallRepositoryDeleteUser (Some (load _id r))])).
Proof.
  intros Hs.
  assert (UserRepository.user_exists_by_id (db w) _id = true) as Hex
    by (apply user_exists_by_id_true; eauto).
  unfold delete_user. unfold_calls. rewrite Hex. unfold_calls.
  unfold UserRepository.get_user_object_by_id. rewrite Hs.
  rewrite <- !app_assoc. reflexivity.
Qed.
(** Every failure of [login] is the same exception. *)
Lemma login_raises_only_unauthorized data w e :
  fst (login data w) = Raise e ->
  e = HTTPException 401 "Incorrect username or password"
        (Some {[ "WWW-Authenticate" := "Bearer" ]}).
Proof.
  destruct (UserRepository.get_user_by_username (db w)
              (UserLogin.username data)) as [u |] eqn:Hg.
  - destruct (pwd_context_verify (UserLogin.password data)
                (User.hashed_password u)) eqn:Hv.
    + rewrite (login_run_verified data w u Hg Hv). discriminate.
    + rewrite (login_run_wrong_password data w u Hg Hv). cbn. congruence.
  - rewrite (login_run_unknown_user data w Hg). cbn. congruence.
Qed.

(** ** Registration *)

(** C2. Whenever a user with the input's email or a user with the input's
    username is already stored, [create] raises the 400 "already
    registered" exception (Conflict).  The email is checked first: the
    detail names the email whenever the email is taken, whatever the
    username is, and names the username only when the email is free. *)
Theorem create_conflict data w :
  UserRepository.user_exists_by_email (db w) (UserIn.email data) = true
  \/ UserRepository.user_exists_by_username (db w) (UserIn.username data)
     = true ->
  exists e,
    fst (create data w) = Raise e
    /\ error_kind e = Conflict
    /\ e = HTTPException HTTP_400_BAD_REQUEST
             (if UserRepository.user_exists_by_email (db w)
                   (UserIn.email data)
              then "Email " +:+ UserIn.email data +:+ " already registered"
              else "Username " +:+ UserIn.username data
                   +:+ " already registered")
             None.
Proof.
  intros Htaken.
  destruct (UserRepository.user_exists_by_email (db w) (UserIn.email data))
    eqn:He.
  - rewrite (create_run_email_taken data w He). eauto.
  - destruct Htaken as [Habs | Hu]; [discriminate |].
    rewrite (create_run_username_taken data w He Hu). eauto.
Qed.

(** C9. When the email or the username is already taken, [create] raises
    the Conflict exception and none of the calls it has made is a call of
    a validator: this holds whatever the validators would have answered,
    so also for a weak password or a malformed email. *)
Theorem create_conflict_precedes_validation data w :
  UserRepository.user_exists_by_email (db w) (UserIn.email data) = true
  \/ UserRepository.user_exists_by_username (db w) (UserIn.username data)
     = true ->
  exists detail calls,
    fst (create data w) = Raise (HTTPException HTTP_400_BAD_REQUEST detail None)
    /\ error_kind (HTTPException HTTP_400_BAD_REQUEST detail None) = Conflict
    /\ log (snd (create data w)) = (log w ++ calls)%list
    /\ Forall (fun c => is_validation c = false) calls.
Proof.
  intros Htaken.
  destruct (UserRepository.user_exists_by_email (db w) (UserIn.email data))
    eqn:He.
  - rewrite (create_run_email_taken data w He). cbn [fst snd log].
    do 2 eexists. repeat split. repeat constructor.
  - destruct Htaken as [Habs | Hu]; [discriminate |].
    rewrite (create_run_username_taken data w He Hu). cbn [fst snd log].
    do 2 eexists. repeat split. repeat constructor.
Qed.

(** C3. For an input whose email and username are free, if the password
    or the email is rejected by its validator, [create] raises
    [InvalidInput] with the reason of the first validator that rejects
    (password before email), the store is unchanged, and
    none of the calls made is a call that writes to the store. *)
Theorem create_invalid_input_before_mutation data w :
  UserRepository.user_exists_by_email (db w) (UserIn.email data) = false ->
  UserRepository.user_exists_by_username (db w) (UserIn.username data)
  = false ->
  is_Some (validate_password (UserIn.password data))
  \/ is_Some (validate_email (UserIn.email data)) ->
  exists reason calls,
    fst (create data w) = Raise (InvalidInput reason)
    /\ error_kind (InvalidInput reason) = Invalid
    /\ (validate_password (UserIn.password data) = Some reason
        \/ validate_password (UserIn.password data) = None
           /\ validate_email (UserIn.email data) = Some reason)
    /\ db (snd (create data w)) = db w
    /\ log (snd (create data w)) = (log w ++ calls)%list
    /\ Forall (fun c => is_store_mutation c = false) calls.
Proof.
  intros He Hu Hbad.
  destruct (validate_password (UserIn.password data)) as [reason |] eqn:Hp.
  - rewrite (create_run_password_rejected data w reason He Hu Hp).
    cbn [fst snd db log]. exists reason. eexists.
    repeat split; [by left | repeat constructor].
  - destruct Hbad as [[? Habs] | [reason Hm]]; [discriminate |].
    rewrite (create_run_email_rejected data w reason He Hu Hp Hm).
    cbn [fst snd db log]. exists reason. eexists.
    repeat split; [by right | repeat constructor].
Qed.

(** C4. For an input that passes both uniqueness checks and both
    validators, [create] succeeds: it asks the hasher for the hash of the
    plaintext password, stores under a fresh id one new record built from
    the input and that hash (every other record is unchanged, the table
    grows by one), and returns the public fields of the created user,
    which hold no password hash. *)
Theorem create_success data w :
  UserRepository.user_exists_by_email (db w) (UserIn.email data) = false ->
  UserRepository.user_exists_by_username (db w) (UserIn.username data)
  = false ->
  validate_password (UserIn.password data) = None ->
  validate_email (UserIn.email data) = None ->
  db w !! new_id (db w) = None ->
  let hashed_password :=
    fst (get_password_hash (UserIn.password data) (env w)) in
  let w' := snd (create data w) in
  fst (create data w)
  = Return {| UserInDBBase.id := new_id (db w);
              UserInDBBase.username := UserIn.username data;
              UserInDBBase.email := UserIn.email data;
              UserInDBBase.is_superuser := default_is_superuser |}
  /\ db w' !! new_id (db w)
     = Some {| UserRow.username := UserIn.username data;
               UserRow.email := UserIn.email data;
               UserRow.hashed_password := hashed_password;
               UserRow.is_superuser := default_is_superuser |}
  /\ (forall j : UUID, j <> new_id (db w) -> db w' !! j = db w !! j)
  /\ size (db w') = S (size (db w))
  /\ In (CallGetPasswordHash (UserIn.password data)) (log w')
  /\ In (CallRepositoryCreate data hashed_password) (log w').
Proof.
  intros He Hu Hp Hm Hfresh hashed_password w'. subst w' hashed_password.
  rewrite (create_run_accepted data w He Hu Hp Hm).
  cbn [fst snd db log]. unfold UserRepository.create.
  repeat split.
  - apply lookup_insert_eq.
  - intros j Hj. by apply lookup_insert_ne.
  - by apply map_size_insert_None.
  - apply in_or_app. right. cbn. tauto.
  - apply in_or_app. right. cbn. tauto.
Qed.

(** ** Authentication *)

(** C1. [login] raises one and the same exception, 401 "Incorrect
    username or password" with the header WWW-Authenticate: Bearer
    (Unauthorized), both when no user carries the username and when the
    user found fails the verification of the password against the stored
    hash: status, detail and headers are equal in the two cases. *)
Theorem login_failures_indistinguishable
    (data1 data2 : UserLogin.t) (w1 w2 : World Env) (u : User.t) :
  UserRepository.user_exists_by_username (db w1) (UserLogin.username data1)
  = false ->
  UserRepository.get_user_by_username (db w2) (UserLogin.username data2)
  = Some u ->
  pwd_context_verify (UserLogin.password data2) (User.hashed_password u)
  = false ->
  exists e,
    fst (login data1 w1) = Raise e
    /\ fst (login data2 w2) = Raise e
    /\ error_kind e = Unauthorized
    /\ e = HTTPException 401 "Incorrect username or password"
             (Some {[ "WWW-Authenticate" := "Bearer" ]}).
Proof.
  intros Hnone Hsome Hv. apply get_user_by_username_None in Hnone.
  rewrite (login_run_unknown_user data1 w1 Hnone).
  rewrite (login_run_wrong_password data2 w2 u Hsome Hv).
  eexists. repeat split.
Qed.

(** C5. When a user with the username is found and the password verifies
    against the stored hash, [login] returns the dictionary with the keys
    access_token and token_type, token_type being "bearer"; the token is
    the one the issuer gives for the claims sub = username and the
    expiration delta of ACCESS_TOKEN_EXPIRE_MINUTES minutes, and the
    issuer was called with exactly these arguments. *)
Theorem login_issues_bearer_token data w u :
  UserRepository.get_user_by_username (db w) (UserLogin.username data)
  = Some u ->
  pwd_context_verify (UserLogin.password data) (User.hashed_password u)
  = true ->
  exists access_token : string,
    fst (login data w)
    = Return {[ "access_token" := access_token; "token_type" := "bearer" ]}
    /\ access_token
       = fst (create_access_token
                {[ "sub" := UserLogin.username data ]}
                (timedelta_minutes ACCESS_TOKEN_EXPIRE_MINUTES) (env w))
    /\ total_seconds (timedelta_minutes ACCESS_TOKEN_EXPIRE_MINUTES)
       = 60 * ACCESS_TOKEN_EXPIRE_MINUTES
    /\ In (CallCreateAccessToken {[ "sub" := UserLogin.username data ]}
             (timedelta_minutes ACCESS_TOKEN_EXPIRE_MINUTES))
          (log (snd (login data w))).
Proof.
  intros Hg Hv. rewrite (login_run_verified data w u Hg Hv).
  apply get_user_by_username_Some in Hg as [-> _].
  cbn [fst snd log]. eexists. repeat split.
  apply in_or_app. right. cbn. tauto.
Qed.

(** C6. After a successful [create], [login] with the same username and
    plaintext password succeeds in the resulting world, provided the
    hasher verifies the password against the hash it has just produced
    for it. *)
Theorem create_then_login data w out :
  fst (create data w) = Return out ->
  pwd_context_verify (UserIn.password data)
    (fst (get_password_hash (UserIn.password data) (env w))) = true ->
  exists access_token : string,
    fst (login (UserLogin.Build (UserIn.username data)
                  (UserIn.password data))
           (snd (create data w)))
    = Return {[ "access_token" := access_token; "token_type" := "bearer" ]}.
Proof.
  intros Hok Hv.
  destruct (UserRepository.user_exists_by_email (db w) (UserIn.email data))
    eqn:He.
  { rewrite (create_run_email_taken data w He) in Hok. discriminate. }
  destruct (UserRepository.user_exists_by_username (db w)
              (UserIn.username data)) eqn:Hu.
  { rewrite (create_run_username_taken data w He Hu) in Hok. discriminate. }
  destruct (validate_password (UserIn.password data)) as [reason |] eqn:Hp.
  { rewrite (create_run_password_rejected data w reason He Hu Hp) in Hok.
    discriminate. }
  destruct (validate_email (UserIn.email data)) as [reason |] eqn:Hm.
  { rewrite (create_run_email_rejected data w reason He Hu Hp Hm) in Hok.
    discriminate. }
  rewrite (create_run_accepted data w He Hu Hp Hm). cbn [snd].
  eexists.
  erewrite login_run_verified; [reflexivity | |].
  - cbn [db UserLogin.username].
    apply (get_user_by_username_create (db w) (new_id (db w))
             (UserRepository.new_row data _ default_is_superuser)).
    exact Hu.
  - exact Hv.
Qed.
(** ** Superuser check and deletion *)

(** C7. [is_superuser] raises the 404 "User ... not found" exception
    (NotFound) exactly when the table holds no record under the id, and
    it raises nothing else; when a record is stored under the id it
    returns that record's superuser flag; the store is left as it was in
    every case. *)
Theorem is_superuser_spec (_id : UUID) w :
  (fst (is_superuser _id w)
   = Raise (HTTPException HTTP_404_NOT_FOUND
              ("User " +:+ str_UUID _id +:+ " not found") None)
   <-> db w !! _id = None)
  /\ ((exists e, fst (is_superuser _id w) = Raise e
                 /\ error_kind e = NotFound)
      <-> db w !! _id = None)
  /\ (forall e, fst (is_superuser _id w) = Raise e -> error_kind e = NotFound)
  /\ (forall r, db w !! _id = Some r ->
                fst (is_superuser _id w) = Return (UserRow.is_superuser r))
  /\ db (snd (is_superuser _id w)) = db w.
Proof.
  destruct (db w !! _id) as [r |] eqn:Hs.
  - rewrite (is_superuser_run_found _id w r Hs). cbn [fst snd db].
    repeat split; try discriminate.
    + intros (e & Habs & _). discriminate.
    + congruence.
  - rewrite (is_superuser_run_missing _id w Hs). cbn [fst snd db].
    repeat split; try discriminate; eauto.
    intros e [= <-]. reflexivity.
Qed.

(** C8. [delete_user] raises the 404 "User ... not found" exception
    (NotFound) exactly when the table holds no record under the id, and
    then the store is left as it was; when a record is stored under the
    id it returns [True] and the store is the old one without that
    record: nothing is stored under the id any more, every other record
    is unchanged, and the table has shrunk by one. *)
Theorem delete_user_spec (_id : UUID) w :
  (fst (delete_user _id w)
   = Raise (HTTPException HTTP_404_NOT_FOUND
              ("User " +:+ str_UUID _id +:+ " not found") None)
   <-> db w !! _id = None)
  /\ ((exists e, fst (delete_user _id w) = Raise e
                 /\ error_kind e = NotFound)
      <-> db w !! _id = None)
  /\ (db w !! _id = None -> db (snd (delete_user _id w)) = db w)
  /\ (is_Some (db w !! _id) ->
      fst (delete_user _id w) = Return true
      /\ db (snd (delete_user _id w)) = delete _id (db w)
      /\ db (snd (delete_user _id w)) !! _id = None
      /\ (forall j : UUID,
            j <> _id -> db (snd (delete_user _id w)) !! j = db w !! j)
      /\ size (db w) = S (size (db (snd (delete_user _id w))))).
Proof.
  destruct (db w !! _id) as [r |] eqn:Hs.
  - rewrite (delete_user_run_found _id w r Hs). cbn [fst snd db].
    repeat split; try discriminate.
    + intros (e & Habs & _). discriminate.
    + apply lookup_delete_eq.
    + intros j Hj. by apply lookup_delete_ne.
    + rewrite map_size_delete, Hs.
      assert (size (db w) <> 0%nat) by (eapply map_size_ne_0_lookup_2; eauto).
      lia.
  - rewrite (delete_user_run_missing _id w Hs). cbn [fst snd db].
    split; [done |]. split; [split; eauto |]. split; [done |].
    intros [? Habs]. discriminate.
Qed.

(** ** Frame *)

(** C10. [login] and [is_superuser] leave the store as it was, for every
    input and whether they return or raise, and none of the calls they
    make is a call that writes to the store. *)
Theorem login_is_superuser_frame (data : UserLogin.t) (_id : UUID) w :
  db (snd (login data w)) = db w
  /\ db (snd (is_superuser _id w)) = db w
  /\ (exists calls,
        log (snd (login data w)) = (log w ++ calls)%list
        /\ Forall (fun c => is_store_mutation c = false) calls)
  /\ (exists calls,
        log (snd (is_superuser _id w)) = (log w ++ calls)%list
        /\ Forall (fun c => is_store_mutation c = false) calls).
Proof.
  assert (db (snd (login data w)) = db w
          /\ exists calls,
               log (snd (login data w)) = (log w ++ calls)%list
               /\ Forall (fun c => is_store_mutation c = false) calls)
    as [Hl1 Hl2].
  { destruct (UserRepository.get_user_by_username (db w)
                (UserLogin.username data)) as [u |] eqn:Hg.
    - destruct (pwd_context_verify (UserLogin.password data)
                  (User.hashed_password u)) eqn:Hv.
      + rewrite (login_run_verified data w u Hg Hv). cbn [snd db log].
        split; [done |]. eexists. split; [done |]. repeat constructor.
      + rewrite (login_run_wrong_password data w u Hg Hv). cbn [snd db log].
        split; [done |]. eexists. split; [done |]. repeat constructor.
    - rewrite (login_run_unknown_user data w Hg). cbn [snd db log].
      split; [done |]. eexists. split; [done |]. repeat constructor. }
  assert (db (snd (is_superuser _id w)) = db w
          /\ exists calls,
               log (snd (is_superuser _id w)) = (log w ++ calls)%list
               /\ Forall (fun c => is_store_mutation c = false) calls)
    as [Hs1 Hs2].
  { destruct (db w !! _id) as [r |] eqn:Hs.
    - rewrite (is_superuser_run_found _id w r Hs). cbn [snd db log].
      split; [done |]. eexists. split; [done |]. repeat constructor.
    - rewrite (is_superuser_run_missing _id w Hs). cbn [snd db log].
      split; [done |]. eexists. split; [done |]. repeat constructor. }
  auto.
Qed.
End Properties.

(** ** The service at work on the concrete instance *)

Example str_UUID_canonical :
  str_UUID 3735928559%N = "00000000-0000-0000-0000-0000deadbeef".
Proof. vm_compute. reflexivity. Qed.

(** The example of the specification: registering alice succeeds, and a
    second registration with her email under another username conflicts. *)
Example register_alice_then_reuse_email :
  fst (create (deps := Demo.collaborators) Demo.alice Demo.empty_world)
  = Return (UserInDBBase.Build 1%N "alice" "a@x.com" false)
  /\ fst (create (deps := Demo.collaborators)
            (UserIn.Build "alicia" "a@x.com" "Str0ng!Pass")
            (snd (create (deps := Demo.collaborators) Demo.alice
                    Demo.empty_world)))
     = Raise (HTTPException 400 "Email a@x.com already registered" None).
Proof. vm_compute. split; reflexivity. Qed.

(** [create] and [delete_user] do write to the store. *)
Example create_mutates :
  size (db (snd (create (deps := Demo.collaborators) Demo.bob Demo.world))) = 3%nat
  /\ size (db Demo.world) = 2%nat.
Proof. vm_compute. split; reflexivity. Qed.

Example delete_user_mutates :
  size (db (snd (delete_user 9%N Demo.world))) = 1%nat
  /\ fst (delete_user 9%N Demo.world) = Return true
  /\ fst (delete_user 8%N Demo.world)
     = Raise (HTTPException 404
                "User 00000000-0000-0000-0000-000000000008 not found" None).
Proof. vm_compute. repeat split; reflexivity. Qed.

(** *** Instances of the theorems that carry hypotheses *)

Lemma create_conflict_witness :
  exists e,
    fst (create (deps := Demo.collaborators)
           (UserIn.Build "carol" "a@x.com" "Str0ng!Pass") Demo.world)
    = Raise e
    /\ error_kind e = Conflict
    /\ e = HTTPException 400 "Email a@x.com already registered" None.
Proof.
  apply (create_conflict (deps := Demo.collaborators)
           (UserIn.Build "carol" "a@x.com" "Str0ng!Pass") Demo.world).
  left. vm_compute. reflexivity.
Defined.

Lemma create_conflict_precedes_validation_witness :
  validate_password (Collaborators := Demo.collaborators) "weak"
  = Some "Password must be at least 8 characters long"
  /\ exists detail calls,
       fst (create (deps := Demo.collaborators)
              (UserIn.Build "root" "malformed" "weak") Demo.world)
       = Raise (HTTPException HTTP_400_BAD_REQUEST detail None)
       /\ error_kind (HTTPException HTTP_400_BAD_REQUEST detail None) = Conflict
       /\ log (snd (create (deps := Demo.collaborators)
                      (UserIn.Build "root" "malformed" "weak") Demo.world))
          = (log Demo.world ++ calls)%list
       /\ Forall (fun c => is_validation c = false) calls.
Proof.
  split; [vm_compute; reflexivity |].
  apply (create_conflict_precedes_validation (deps := Demo.collaborators)
           (UserIn.Build "root" "malformed" "weak") Demo.world).
  right. vm_compute. reflexivity.
Defined.

Lemma create_invalid_input_before_mutation_witness :
  exists reason calls,
    fst (create (deps := Demo.collaborators)
           (UserIn.Build "bob" "b@x.com" "weak") Demo.world)
    = Raise (InvalidInput reason)
    /\ error_kind (InvalidInput reason) = Invalid
    /\ (Demo.check_password "weak" = Some reason
        \/ Demo.check_password "weak" = None
           /\ Demo.check_email "b@x.com" = Some reason)
    /\ db (snd (create (deps := Demo.collaborators)
                  (UserIn.Build "bob" "b@x.com" "weak") Demo.world))
       = db Demo.world
    /\ log (snd (create (deps := Demo.collaborators)
                   (UserIn.Build "bob" "b@x.com" "weak") Demo.world))
       = (log Demo.world ++ calls)%list
    /\ Forall (fun c => is_store_mutation c = false) calls.
Proof.
  apply (create_invalid_input_before_mutation (deps := Demo.collaborators)
           (UserIn.Build "bob" "b@x.com" "weak") Demo.world).
  - vm_compute. reflexivity.
  - vm_compute. reflexivity.
  - left. eexists. vm_compute. reflexivity.
Defined.

Lemma create_success_witness :
  fst (create (deps := Demo.collaborators) Demo.bob Demo.world)
  = Return (UserInDBBase.Build 10%N "bob" "b@x.com" false)
  /\ db (snd (create (deps := Demo.collaborators) Demo.bob Demo.world))
     !! 10%N
     = Some (UserRow.Build "bob" "b@x.com" "h:Str0ng!Pass" false)
  /\ (forall j : UUID,
        j <> 10%N ->
        db (snd (create (deps := Demo.collaborators) Demo.bob Demo.world))
        !! j = db Demo.world !! j)
  /\ size (db (snd (create (deps := Demo.collaborators) Demo.bob Demo.world)))
     = S (size (db Demo.world))
  /\ In (CallGetPasswordHash "Str0ng!Pass")
        (log (snd (create (deps := Demo.collaborators) Demo.bob Demo.world)))
  /\ In (CallRepositoryCreate Demo.bob "h:Str0ng!Pass")
        (log (snd (create (deps := Demo.collaborators) Demo.bob Demo.world))).
Proof.
  apply (create_success (deps := Demo.collaborators) Demo.bob Demo.world).
  all: vm_compute; reflexivity.
Defined.

Lemma login_failures_indistinguishable_witness :
  exists e,
    fst (login (deps := Demo.collaborators)
           (UserLogin.Build "nobody" "toor-toor") Demo.world) = Raise e
    /\ fst (login (deps := Demo.collaborators)
              (UserLogin.Build "root" "wrong") Demo.world) = Raise e
    /\ error_kind e = Unauthorized
    /\ e = HTTPException 401 "Incorrect username or password"
             (Some {[ "WWW-Authenticate" := "Bearer" ]}).
Proof.
  apply (login_failures_indistinguishable (deps := Demo.collaborators)
           (UserLogin.Build "nobody" "toor-toor")
           (UserLogin.Build "root" "wrong") Demo.world Demo.world
           (User.Build 9%N "root" "r@x.com" "h:toor-toor" true)).
  all: vm_compute; reflexivity.
Defined.

Lemma login_issues_bearer_token_witness :
  exists access_token : string,
    fst (login (deps := Demo.collaborators)
           (UserLogin.Build "root" "toor-toor") Demo.world)
    = Return {[ "access_token" := access_token; "token_type" := "bearer" ]}
    /\ access_token
       = fst (Demo.issue {[ "sub" := "root" ]} (timedelta_minutes 30) O)
    /\ total_seconds (timedelta_minutes 30) = 60 * 30
    /\ In (CallCreateAccessToken {[ "sub" := "root" ]} (timedelta_minutes 30))
          (log (snd (login (deps := Demo.collaborators)
                       (UserLogin.Build "root" "toor-toor") Demo.world))).
Proof.
  apply (login_issues_bearer_token (deps := Demo.collaborators)
           (UserLogin.Build "root" "toor-toor") Demo.world
           (User.Build 9%N "root" "r@x.com" "h:toor-toor" true)).
  all: vm_compute; reflexivity.
Defined.

Lemma create_then_login_witness :
  exists access_token : string,
    fst (login (deps := Demo.collaborators)
           (UserLogin.Build "bob" "Str0ng!Pass")
           (snd (create (deps := Demo.collaborators) Demo.bob Demo.world)))
    = Return {[ "access_token" := access_token; "token_type" := "bearer" ]}.
Proof.
  apply (create_then_login (deps := Demo.collaborators) Demo.bob Demo.world
           (UserInDBBase.Build 10%N "bob" "b@x.com" false)).
  all: vm_compute; reflexivity.
Defined.

(** ** Further properties of the service *)

Section Traces.
Context {Env : Type} {deps : Collaborators Env}.
Implicit Types (w : World Env).

Lemma calls_made_run {A : Type} (m : M Env A) w (r : Outcome A)
    (d : Store) (e : Env) (calls : list Call) :
  m w = (r, MkWorld d e (log w ++ calls)%list) ->
  calls_made m w = calls.
Proof.
  intros Hrun. unfold calls_made. rewrite Hrun. cbn [snd log].
  apply drop_app_length.
Qed.

(** The three paths of [login], by what the lookup and the verification
    answer. *)
Lemma login_cases data w :
  (UserRepository.get_user_by_username (db w) (UserLogin.username data) = None
   /\ login data w
      = (Raise (HTTPException 401 "Incorrect username or password"
                  (Some {[ "WWW-Authenticate" := "Bearer" ]})),
         MkWorld (db w) (env w)
           (log w ++ [CallGetUserByUsername (UserLogin.username data)])))
  \/ (exists u,
        UserRepository.get_user_by_username (db w) (UserLogin.username data)
        = Some u
        /\ pwd_context_verify (UserLogin.password data)
             (User.hashed_password u) = false
        /\ login data w
           = (Raise (HTTPException 401 "Incorrect username or password"
                       (Some {[ "WWW-Authenticate" := "Bearer" ]})),
              MkWorld (db w) (env w)
                (log w ++ [CallGetUserByUsername (UserLogin.username data);
                           CallPwdVerify (UserLogin.password data)
                             (User.hashed_password u)])))
  \/ (exists u,
        UserRepository.get_user_by_username (db w) (UserLogin.username data)
        = Some u
        /\ pwd_context_verify (UserLogin.password data)
             (User.hashed_password u) = true
        /\ login data w
           = (Return
                {[ "access_token" :=
                     fst (create_access_token {[ "sub" := User.username u ]}
                            (timedelta_minutes ACCESS_TOKEN_EXPIRE_MINUTES)
                            (env w));
                   "token_type" := "bearer" ]},
              MkWorld (db w)
                (snd (create_access_token {[ "sub" := User.username u ]}
                        (timedelta_minutes ACCESS_TOKEN_EXPIRE_MINUTES)
                        (env w)))
                (log w ++ [CallGetUserByUsername (UserLogin.username data);
                           CallPwdVerify (UserLogin.password data)
                             (User.hashed_password u);
                           CallCreateAccessToken
                             {[ "sub" := User.username u ]}
                             (timedelta_minutes
                                ACCESS_TOKEN_EXPIRE_MINUTES)]))).
Proof.
  destruct (UserRepository.get_user_by_username (db w)
              (UserLogin.username data)) as [u |] eqn:Hg.
  - destruct (pwd_context_verify (UserLogin.password data)
                (User.hashed_password u)) eqn:Hv.
    + right. right. exists u. repeat split; [done |].
      by apply login_run_verified.
    + right. left. exists u. repeat split; [done |].
      by apply login_run_wrong_password.
  - left. split; [done |]. by apply login_run_unknown_user.
Qed.

(** X1. [login] raises exactly when no user carries the username or the
    user found fails the password verification, and what it raises is
    always the 401 exception: no other exception leaves [login], in
    particular no [AttributeError] from [user.username]. *)
Theorem login_raises_iff_bad_credentials data w e :
  fst (login data w) = Raise e
  <-> e = HTTPException 401 "Incorrect username or password"
            (Some {[ "WWW-Authenticate" := "Bearer" ]})
      /\ (UserRepository.get_user_by_username (db w)
            (UserLogin.username data) = None
          \/ exists u,
               UserRepository.get_user_by_username (db w)
                 (UserLogin.username data) = Some u
               /\ pwd_context_verify (UserLogin.password data)
                    (User.hashed_password u) = false).
Proof.
  destruct (login_cases data w)
    as [[Hg Hrun] | [(u & Hg & Hv & Hrun) | (u & Hg & Hv & Hrun)]];
    rewrite Hrun; cbn [fst]; split.
  - intros [= <-]. auto.
  - intros [-> _]. done.
  - intros [= <-]. eauto.
  - intros [-> _]. done.
  - discriminate.
  - intros [_ [Hnone | (u' & Hg' & Hv')]]; [congruence |].
    rewrite Hg in Hg'. injection Hg' as <-. congruence.
Qed.

(** X2. [login] returns a token response exactly when a user carries the
    username and the password verifies against the stored hash of that
    user. *)
Theorem login_returns_iff_verified data w :
  (exists response, fst (login data w) = Return response)
  <-> exists u,
        UserRepository.get_user_by_username (db w) (UserLogin.username data)
        = Some u
        /\ pwd_context_verify (UserLogin.password data)
             (User.hashed_password u) = true.
Proof.
  destruct (login_cases data w)
    as [[Hg Hrun] | [(u & Hg & Hv & Hrun) | (u & Hg & Hv & Hrun)]];
    rewrite Hrun; cbn [fst]; split.
  - intros [? Habs]. discriminate.
  - intros (u & Hg' & _). congruence.
  - intros [? Habs]. discriminate.
  - intros (u' & Hg' & Hv'). rewrite Hg in Hg'. injection Hg' as <-.
    congruence.
  - eauto.
  - eauto.
Qed.

(** X3. When [login] raises, the token issuer has not been called and the
    ambient state it draws on is as before. *)
Theorem login_failure_issues_no_token data w e :
  fst (login data w) = Raise e ->
  Forall (fun c => is_token_issue c = false) (calls_made (login data) w)
  /\ env (snd (login data w)) = env w.
Proof.
  destruct (login_cases data w)
    as [[Hg Hrun] | [(u & Hg & Hv & Hrun) | (u & Hg & Hv & Hrun)]];
    rewrite (calls_made_run _ _ _ _ _ _ Hrun); rewrite Hrun; cbn [fst snd env].
  - intros _. split; [repeat constructor | done].
  - intros _. split; [repeat constructor | done].
  - discriminate.
Qed.

(** X4. [login] calls the password verification only for a user it has
    found, and then on the submitted password and that user's stored
    hash: for an unknown username the verification is skipped. *)
Theorem login_verifies_found_user_only data w password hashed_password :
  In (CallPwdVerify password hashed_password) (calls_made (login data) w)
  <-> password = UserLogin.password data
      /\ exists u,
           UserRepository.get_user_by_username (db w)
             (UserLogin.username data) = Some u
           /\ hashed_password = User.hashed_password u.
Proof.
  destruct (login_cases data w)
    as [[Hg Hrun] | [(u & Hg & Hv & Hrun) | (u & Hg & Hv & Hrun)]];
    rewrite (calls_made_run _ _ _ _ _ _ Hrun); cbn [In]; split.
  - intros [Habs | []]. discriminate.
  - intros (_ & u & Hg' & _). congruence.
  - intros [Habs | [[= <- <-] | []]]; [discriminate | eauto].
  - intros (-> & u' & Hg' & ->). rewrite Hg in Hg'. injection Hg' as <-.
    auto.
  - intros [Habs | [[= <- <-] | [Habs | []]]];
      [discriminate | eauto | discriminate].
  - intros (-> & u' & Hg' & ->). rewrite Hg in Hg'. injection Hg' as <-.
    auto.
Qed.
(** The outcome of the four checks of [create] in a world. *)
Lemma create_cases data w :
  UserRepository.user_exists_by_email (db w) (UserIn.email data) = true
  \/ (UserRepository.user_exists_by_email (db w) (UserIn.email data) = false
      /\ UserRepository.user_exists_by_username (db w) (UserIn.username data)
         = true)
  \/ (exists reason,
        UserRepository.user_exists_by_email (db w) (UserIn.email data) = false
        /\ UserRepository.user_exists_by_username (db w)
             (UserIn.username data) = false
        /\ validate_password (UserIn.password data) = Some reason)
  \/ (exists reason,
        UserRepository.user_exists_by_email (db w) (UserIn.email data) = false
        /\ UserRepository.user_exists_by_username (db w)
             (UserIn.username data) = false
        /\ validate_password (UserIn.password data) = None
        /\ validate_email (UserIn.email data) = Some reason)
  \/ (UserRepository.user_exists_by_email (db w) (UserIn.email data) = false
      /\ UserRepository.user_exists_by_username (db w) (UserIn.username data)
         = false
      /\ validate_password (UserIn.password data) = None
      /\ validate_email (UserIn.email data) = None).
Proof.
  destruct (UserRepository.user_exists_by_email (db w) (UserIn.email data));
    [by left | right].
  destruct (UserRepository.user_exists_by_username (db w)
              (UserIn.username data)); [by left | right].
  destruct (validate_password (UserIn.password data)) as [reason |];
    [left; by exists reason | right].
  destruct (validate_email (UserIn.email data)) as [reason |];
    [left; by exists reason | right].
  done.
Qed.

(** X5. [create] returns a user exactly when the email is free, the
    username is free, and both validators accept: no other condition
    decides the success of a registration. *)
Theorem create_returns_iff_checks_pass data w :
  (exists out, fst (create data w) = Return out)
  <-> UserRepository.user_exists_by_email (db w) (UserIn.email data) = false
      /\ UserRepository.user_exists_by_username (db w) (UserIn.username data)
         = false
      /\ validate_password (UserIn.password data) = None
      /\ validate_email (UserIn.email data) = None.
Proof.
  split.
  - intros [out Hout].
    destruct (create_cases data w)
      as [He | [[He Hu] | [(reason & He & Hu & Hp)
                          | [(reason & He & Hu & Hp & Hm) | Hall]]]].
    + rewrite (create_run_email_taken data w He) in Hout. discriminate.
    + rewrite (create_run_username_taken data w He Hu) in Hout. discriminate.
    + rewrite (create_run_password_rejected data w reason He Hu Hp) in Hout.
      discriminate.
    + rewrite (create_run_email_rejected data w reason He Hu Hp Hm) in Hout.
      discriminate.
    + exact Hall.
  - intros (He & Hu & Hp & Hm).
    rewrite (create_run_accepted data w He Hu Hp Hm). eauto.
Qed.

(** X6. When [create] raises, whatever the reason, the store is as before,
    the password has not been hashed and [repository.create] has not been
    called. *)
Theorem create_failure_changes_nothing data w e :
  fst (create data w) = Raise e ->
  db (snd (create data w)) = db w
  /\ env (snd (create data w)) = env w
  /\ Forall (fun c => is_hashing c = false /\ is_store_mutation c = false)
       (calls_made (create data) w).
Proof.
  destruct (create_cases data w)
    as [He | [[He Hu] | [(reason & He & Hu & Hp)
                        | [(reason & He & Hu & Hp & Hm)
                          | (He & Hu & Hp & Hm)]]]].
  - pose proof (create_run_email_taken data w He) as Hrun.
    rewrite (calls_made_run _ _ _ _ _ _ Hrun), Hrun. cbn [fst snd db env].
    intros _. repeat split. repeat constructor.
  - pose proof (create_run_username_taken data w He Hu) as Hrun.
    rewrite (calls_made_run _ _ _ _ _ _ Hrun), Hrun. cbn [fst snd db env].
    intros _. repeat split. repeat constructor.
  - pose proof (create_run_password_rejected data w reason He Hu Hp) as Hrun.
    rewrite (calls_made_run _ _ _ _ _ _ Hrun), Hrun. cbn [fst snd db env].
    intros _. repeat split. repeat constructor.
  - pose proof (create_run_email_rejected data w reason He Hu Hp Hm) as Hrun.
    rewrite (calls_made_run _ _ _ _ _ _ Hrun), Hrun. cbn [fst snd db env].
    intros _. repeat split. repeat constructor.
  - rewrite (create_run_accepted data w He Hu Hp Hm). discriminate.
Qed.

(** X7. The calls of [create] are always an initial part of one fixed
    sequence: email lookup, username lookup, password validation, email
    validation, hashing, [repository.create].  No check is skipped or
    reordered, and the sequence is run to its end exactly when [create]
    returns. *)
Theorem create_calls_in_order data w :
  calls_made (create data) w `prefix_of` create_call_sequence data w
  /\ (calls_made (create data) w = create_call_sequence data w
      <-> exists out, fst (create data w) = Return out).
Proof.
  unfold create_call_sequence.
  destruct (create_cases data w)
    as [He | [[He Hu] | [(reason & He & Hu & Hp)
                        | [(reason & He & Hu & Hp & Hm)
                          | (He & Hu & Hp & Hm)]]]].
  - pose proof (create_run_email_taken data w He) as Hrun.
    rewrite (calls_made_run _ _ _ _ _ _ Hrun), Hrun. cbn [fst]. split.
    + eexists. reflexivity.
    + split; [discriminate | intros [? Habs]; discriminate].
  - pose proof (create_run_username_taken data w He Hu) as Hrun.
    rewrite (calls_made_run _ _ _ _ _ _ Hrun), Hrun. cbn [fst]. split.
    + eexists. reflexivity.
    + split; [discriminate | intros [? Habs]; discriminate].
  - pose proof (create_run_password_rejected data w reason He Hu Hp) as Hrun.
    rewrite (calls_made_run _ _ _ _ _ _ Hrun), Hrun. cbn [fst]. split.
    + eexists. reflexivity.
    + split; [discriminate | intros [? Habs]; discriminate].
  - pose proof (create_run_email_rejected data w reason He Hu Hp Hm) as Hrun.
    rewrite (calls_made_run _ _ _ _ _ _ Hrun), Hrun. cbn [fst]. split.
    + eexists. reflexivity.
    + split; [discriminate | intros [? Habs]; discriminate].
  - pose proof (create_run_accepted data w He Hu Hp Hm) as Hrun.
    rewrite (calls_made_run _ _ _ _ _ _ Hrun), Hrun. cbn [fst]. split.
    + exists []. by rewrite app_nil_r.
    + split; eauto.
Qed.
(** X8. [delete_user] raises nothing but the 404 exception, it does so
    only for an id the table does not hold, and by then it has made the
    existence query and no other call: no object was fetched and nothing
    was written. *)
Theorem delete_user_raises_only_not_found (_id : UUID) w e :
  fst (delete_user _id w) = Raise e ->
  e = HTTPException HTTP_404_NOT_FOUND
        ("User " +:+ str_UUID _id +:+ " not found") None
  /\ db w !! _id = None
  /\ calls_made (delete_user _id) w = [CallUserExistsById _id]
  /\ db (snd (delete_user _id w)) = db w.
Proof.
  destruct (db w !! _id) as [r |] eqn:Hs.
  - rewrite (delete_user_run_found _id w r Hs). discriminate.
  - pose proof (delete_user_run_missing _id w Hs) as Hrun.
    rewrite (calls_made_run _ _ _ _ _ _ Hrun), Hrun. cbn [fst snd db].
    intros [= <-]. done.
Qed.

(** X9. Whatever [delete_user] hands to [repository.delete_user] is the
    user stored under the requested id: it never passes [None] and never
    another user. *)
Theorem delete_user_deletes_requested_user (_id : UUID) w
    (user : option User.t) :
  In (CallRepositoryDeleteUser user) (calls_made (delete_user _id) w) ->
  exists r, db w !! _id = Some r /\ user = Some (load _id r)
            /\ User.id (load _id r) = _id.
Proof.
  destruct (db w !! _id) as [r |] eqn:Hs.
  - pose proof (delete_user_run_found _id w r Hs) as Hrun.
    rewrite (calls_made_run _ _ _ _ _ _ Hrun). cbn [In].
    intros [Habs | [Habs | [[= <-] | []]]]; try discriminate. eauto.
  - pose proof (delete_user_run_missing _id w Hs) as Hrun.
    rewrite (calls_made_run _ _ _ _ _ _ Hrun). cbn [In].
    intros [Habs | []]. discriminate.
Qed.

(** *** How the operations compose *)

(** X10. After a successful [create], a second [create] whose input has
    the same email raises the email conflict, whatever its username and
    password are, and leaves the store as the first one left it. *)
Theorem create_twice_conflicts data data' w out :
  fst (create data w) = Return out ->
  UserIn.email data' = UserIn.email data ->
  fst (create data' (snd (create data w)))
  = Raise (HTTPException HTTP_400_BAD_REQUEST
             ("Email " +:+ UserIn.email data +:+ " already registered") None)
  /\ db (snd (create data' (snd (create data w))))
     = db (snd (create data w)).
Proof.
  intros Hout Hmail.
  assert (exists out', fst (create data w) = Return out') as Hok by eauto.
  apply create_returns_iff_checks_pass in Hok as (He & Hu & Hp & Hm).
  pose proof (create_run_accepted data w He Hu Hp Hm) as Hrun.
  rewrite Hrun. cbn [snd].
  rewrite create_run_email_taken.
  - cbn [fst snd db]. by rewrite Hmail.
  - cbn [db]. rewrite Hmail. apply user_exists_by_email_true.
    eexists _, _. split; [apply lookup_insert_eq | reflexivity].
Qed.

(** X11. After a successful [delete_user], the id is gone for the service:
    a second [delete_user] and an [is_superuser] of the same id both raise
    the 404 exception. *)
Theorem delete_user_then_not_found (_id : UUID) w :
  fst (delete_user _id w) = Return true ->
  fst (delete_user _id (snd (delete_user _id w)))
  = Raise (HTTPException HTTP_404_NOT_FOUND
             ("User " +:+ str_UUID _id +:+ " not found") None)
  /\ fst (is_superuser _id (snd (delete_user _id w)))
     = Raise (HTTPException HTTP_404_NOT_FOUND
                ("User " +:+ str_UUID _id +:+ " not found") None).
Proof.
  destruct (db w !! _id) as [r |] eqn:Hs.
  - rewrite (delete_user_run_found _id w r Hs). cbn [fst snd]. intros _.
    rewrite delete_user_run_missing, is_superuser_run_missing;
      cbn [db]; try apply lookup_delete_eq. done.
  - rewrite (delete_user_run_missing _id w Hs). discriminate.
Qed.

(** X12. Registration and deletion undo each other: after a successful
    [create] that stored the user under an id not in use before,
    [delete_user] of the returned id succeeds and the store is the one
    before the registration. *)
Theorem create_then_delete_user_restores data w out :
  fst (create data w) = Return out ->
  db w !! new_id (db w) = None ->
  fst (delete_user (UserInDBBase.id out) (snd (create data w))) = Return true
  /\ db (snd (delete_user (UserInDBBase.id out) (snd (create data w))))
     = db w.
Proof.
  intros Hout Hfresh.
  assert (exists out', fst (create data w) = Return out') as Hok by eauto.
  apply create_returns_iff_checks_pass in Hok as (He & Hu & Hp & Hm).
  pose proof (create_run_accepted data w He Hu Hp Hm) as Hrun.
  rewrite Hrun in Hout |- *. cbn [fst snd] in Hout |- *.
  injection Hout as <-. cbn [UserInDBBase.from_orm UserInDBBase.id load User.id].
  erewrite delete_user_run_found.
  - cbn [fst snd db]. split; [done |].
    unfold UserRepository.create. by apply delete_insert_id.
  - cbn [db]. unfold UserRepository.create. apply lookup_insert_eq.
Qed.
End Traces.

(** *** Instances of the further properties that carry hypotheses *)

Lemma login_failure_issues_no_token_witness :
  Forall (fun c => is_token_issue c = false)
    (calls_made (login (deps := Demo.collaborators)
                   (UserLogin.Build "root" "wrong")) Demo.world)
  /\ env (snd (login (deps := Demo.collaborators)
                 (UserLogin.Build "root" "wrong") Demo.world))
     = env Demo.world.
Proof.
  apply (login_failure_issues_no_token (deps := Demo.collaborators)
           (UserLogin.Build "root" "wrong") Demo.world
           (HTTPException 401 "Incorrect username or password"
              (Some {[ "WWW-Authenticate" := "Bearer" ]}))).
  vm_compute. reflexivity.
Defined.

Lemma create_failure_changes_nothing_witness :
  db (snd (create (deps := Demo.collaborators)
             (UserIn.Build "bob" "malformed" "Str0ng!Pass") Demo.world))
  = db Demo.world
  /\ env (snd (create (deps := Demo.collaborators)
                 (UserIn.Build "bob" "malformed" "Str0ng!Pass") Demo.world))
     = env Demo.world
  /\ Forall (fun c => is_hashing c = false /\ is_store_mutation c = false)
       (calls_made (create (deps := Demo.collaborators)
                      (UserIn.Build "bob" "malformed" "Str0ng!Pass"))
          Demo.world).
Proof.
  apply (create_failure_changes_nothing (deps := Demo.collaborators)
           (UserIn.Build "bob" "malformed" "Str0ng!Pass") Demo.world
           (InvalidInput "Invalid email address")).
  vm_compute. reflexivity.
Defined.

Lemma delete_user_raises_only_not_found_witness :
  HTTPException 404 "User 00000000-0000-0000-0000-000000000008 not found" None
  = HTTPException HTTP_404_NOT_FOUND
      ("User " +:+ str_UUID 8%N +:+ " not found") None
  /\ db Demo.world !! 8%N = None
  /\ calls_made (delete_user 8%N) Demo.world = [CallUserExistsById 8%N]
  /\ db (snd (delete_user 8%N Demo.world)) = db Demo.world.
Proof.
  apply (delete_user_raises_only_not_found 8%N Demo.world
           (HTTPException 404
              "User 00000000-0000-0000-0000-000000000008 not found" None)).
  vm_compute. reflexivity.
Defined.

Lemma delete_user_deletes_requested_user_witness :
  exists r,
    db Demo.world !! 9%N = Some r
    /\ Some (User.Build 9%N "root" "r@x.com" "h:toor-toor" true)
       = Some (load 9%N r)
    /\ User.id (load 9%N r) = 9%N.
Proof.
  apply (delete_user_deletes_requested_user 9%N Demo.world
           (Some (User.Build 9%N "root" "r@x.com" "h:toor-toor" true))).
  vm_compute. tauto.
Defined.

Lemma create_twice_conflicts_witness :
  fst (create (deps := Demo.collaborators)
         (UserIn.Build "robert" "b@x.com" "0ther!Pass")
         (snd (create (deps := Demo.collaborators) Demo.bob Demo.world)))
  = Raise (HTTPException HTTP_400_BAD_REQUEST
             ("Email " +:+ "b@x.com" +:+ " already registered") None)
  /\ db (snd (create (deps := Demo.collaborators)
                (UserIn.Build "robert" "b@x.com" "0ther!Pass")
                (snd (create (deps := Demo.collaborators) Demo.bob
                        Demo.world))))
     = db (snd (create (deps := Demo.collaborators) Demo.bob Demo.world)).
Proof.
  apply (create_twice_conflicts (deps := Demo.collaborators) Demo.bob
           (UserIn.Build "robert" "b@x.com" "0ther!Pass") Demo.world
           (UserInDBBase.Build 10%N "bob" "b@x.com" false)).
  all: vm_compute; reflexivity.
Defined.

Lemma delete_user_then_not_found_witness :
  fst (delete_user 9%N (snd (delete_user 9%N Demo.world)))
  = Raise (HTTPException HTTP_404_NOT_FOUND
             ("User " +:+ str_UUID 9%N +:+ " not found") None)
  /\ fst (is_superuser 9%N (snd (delete_user 9%N Demo.world)))
     = Raise (HTTPException HTTP_404_NOT_FOUND
                ("User " +:+ str_UUID 9%N +:+ " not found") None).
Proof.
  apply (delete_user_then_not_found 9%N Demo.world).
  vm_compute. reflexivity.
Defined.

Lemma create_then_delete_user_restores_witness :
  fst (delete_user 10%N
         (snd (create (deps := Demo.collaborators) Demo.bob Demo.world)))
  = Return true
  /\ db (snd (delete_user 10%N
                (snd (create (deps := Demo.collaborators) Demo.bob
                        Demo.world))))
     = db Demo.world.
Proof.
  apply (create_then_delete_user_restores (deps := Demo.collaborators)
           Demo.bob Demo.world
           (UserInDBBase.Build 10%N "bob" "b@x.com" false)).
  all: vm_compute; reflexivity.
Defined.

